(** * realrobotshow_ctrl: the delivery robot's state manager

    A shallow embedding of [state_manager.py] (class [StateManager]) and the
    properties of its state machine.

    The node is a Python object whose fields are written by ROS callbacks
    (button samples, order goals, localization, navigation results) and by
    the fixed-rate loop [spin].  Every method is embedded as a computation in
    a small monad that threads the object's fields, collects what the method
    sends to the outside (publishers, action server and client, sounds) and
    stops at the first Python exception. *)

From Stdlib Require Import String List Bool ZArith QArith Lia.
Import ListNotations.
Local Open Scope string_scope.
Local Open Scope Z_scope.

(** ** Values *)

(** The six state names, [STATE_INITIALIZATION] ... [STATE_ON_ERROR]. *)
Inductive RobotState : Type :=
| STATE_INITIALIZATION
| STATE_GOTO_KITCHEN
| STATE_AT_KITCHEN
| STATE_GOTO_TABLE
| STATE_AT_TABLE
| STATE_ON_ERROR.

(** The Python string each constant is bound to. *)
Definition state_name (s : RobotState) : string :=
  match s with
  | STATE_INITIALIZATION => "INITIALIZATION"
  | STATE_GOTO_KITCHEN => "GOTO_KITCHEN"
  | STATE_AT_KITCHEN => "AT_KITCHEN"
  | STATE_GOTO_TABLE => "GOTO_TABLE"
  | STATE_AT_TABLE => "AT_TABLE"
  | STATE_ON_ERROR => "ON_ERROR"
  end.

Definition RobotState_eqb (a b : RobotState) : bool :=
  match a, b with
  | STATE_INITIALIZATION, STATE_INITIALIZATION
  | STATE_GOTO_KITCHEN, STATE_GOTO_KITCHEN
  | STATE_AT_KITCHEN, STATE_AT_KITCHEN
  | STATE_GOTO_TABLE, STATE_GOTO_TABLE
  | STATE_AT_TABLE, STATE_AT_TABLE
  | STATE_ON_ERROR, STATE_ON_ERROR => true
  | _, _ => false
  end.

(** Python's [not s] on a string: true exactly on the empty string. *)
Definition py_not_str (s : string) : bool :=
  match s with
  | EmptyString => true
  | String _ _ => false
  end.

(** Python numbers as the node passes them around: [int] or [float]. *)
Inductive pynum : Type :=
| PyInt (z : Z)
| PyFloat (q : Q).

(** [float(x)]. *)
Definition py_float (x : pynum) : pynum :=
  match x with
  | PyInt z => PyFloat (inject_Z z)
  | PyFloat q => PyFloat q
  end.

(** [kobuki_msgs.Led] colours. *)
Inductive Led : Type := BLACK | GREEN | ORANGE | RED.

(** [kobuki_msgs.DigitalInputEvent]: four digital input channels. *)
Record DigitalInputEvent : Type := mkDigitalInputEvent {
  values : bool * bool * bool * bool
}.

(** [yocs_msgs.NavigateToGoal]; the code only uses the constant
    [APPROACH_ON] of its approach types. *)
Inductive ApproachType : Type := APPROACH_NONE | APPROACH_NEAR | APPROACH_ON.

Record NavigateToGoal : Type := mkNavigateToGoal {
  goal_location : string;
  goal_approach_type : ApproachType;
  goal_num_retry : pynum;
  goal_timeout : pynum;
  goal_distance : pynum
}.

(** [yocs_msgs.NavigateToFeedback] as the navigator sends it. *)
Inductive NavStatus : Type := STATUS_RETRY | STATUS_ERROR | STATUS_INPROGRESS.

Record NavigateToFeedback : Type := mkNavigateToFeedback {
  fb_distance : pynum;
  fb_message : string;
  fb_status : NavStatus
}.

(** [yocs_msgs.NavigateToResult]. *)
Record NavigateToResult : Type := mkNavigateToResult {
  res_success : bool;
  res_message : string
}.

(** [simple_delivery_msgs.DeliverOrderGoal] and [DeliverOrderResult]. *)
Record DeliverOrderGoal : Type := mkDeliverOrderGoal {
  location : string
}.

Record DeliverOrderResult : Type := mkDeliverOrderResult {
  message : string;
  success : bool
}.

(** The text kept in [_navigator_feed], "Distance : %s, Message : %s" of the
    feedback's distance and message, held as the two values it formats. *)
Record NavigatorFeed : Type := mkNavigatorFeed {
  feed_distance : pynum;
  feed_message : string
}.

(** The sound files named by the class attributes. *)
Definition _confirm_sound : string := "kaku.wav".
Definition _retry_sound : string := "moo.wav".
Definition _navi_failed_sound : string := "angry_cat.wav".
Definition _order_received_sound : string := "kaku.wav".
Definition _at_table_sound : string := "lion.wav".
Definition _enjoy_meal_sound : string := "meow.wav".
Definition _bab_sound : string := "pab.wav".
Definition _kitchen_location : string := "kitchen".

(** ** The object *)

(** The ROS parameters read once by [_init_variables]. *)
Record Params : Type := mkParams {
  param_nav_kitchen_timeout : pynum;
  param_nav_table_timeout : pynum;
  param_nav_retry : pynum;
  param_nav_table_distance : pynum;
  param_resource_path : string
}.

(** The defaults of [rospy.get_param]; [~resource_path] has none. *)
Definition default_params (resource_path : string) : Params :=
  {| param_nav_kitchen_timeout := PyFloat 300;
     param_nav_table_timeout := PyFloat 300;
     param_nav_retry := PyInt 3;
     param_nav_table_distance := PyFloat 5;
     param_resource_path := resource_path |}.

(** The instance attributes.  [_delivery_location], [_navigator_finished]
    and [_navigator_feed] are not assigned by the constructor: [None] is the
    attribute not existing yet. *)
Record StateManager : Type := mkStateManager {
  _current_state : RobotState;
  _initialized : bool;
  _previous_button : option DigitalInputEvent;
  _init_requested : bool;
  _delivery_order_received : bool;
  _customer_confirm : bool;
  _order_in_progress : bool;
  _nav_kitchen_timeout : pynum;
  _nav_table_timeout : pynum;
  _nav_retry : pynum;
  _nav_table_distance : pynum;
  _resource_path : string;
  last_blink_led : Z;
  _delivery_location : option string;
  _navigator_finished : option bool;
  _navigator_feed : option NavigatorFeed
}.

(** Attribute stores, one per attribute the methods assign. *)
Definition set_current_state (v : RobotState) (o : StateManager) : StateManager :=
  mkStateManager v (_initialized o) (_previous_button o) (_init_requested o)
    (_delivery_order_received o) (_customer_confirm o) (_order_in_progress o)
    (_nav_kitchen_timeout o) (_nav_table_timeout o) (_nav_retry o)
    (_nav_table_distance o) (_resource_path o) (last_blink_led o)
    (_delivery_location o) (_navigator_finished o) (_navigator_feed o).

Definition set_initialized (v : bool) (o : StateManager) : StateManager :=
  mkStateManager (_current_state o) v (_previous_button o) (_init_requested o)
    (_delivery_order_received o) (_customer_confirm o) (_order_in_progress o)
    (_nav_kitchen_timeout o) (_nav_table_timeout o) (_nav_retry o)
    (_nav_table_distance o) (_resource_path o) (last_blink_led o)
    (_delivery_location o) (_navigator_finished o) (_navigator_feed o).

Definition set_previous_button (v : option DigitalInputEvent) (o : StateManager)
  : StateManager :=
  mkStateManager (_current_state o) (_initialized o) v (_init_requested o)
    (_delivery_order_received o) (_customer_confirm o) (_order_in_progress o)
    (_nav_kitchen_timeout o) (_nav_table_timeout o) (_nav_retry o)
    (_nav_table_distance o) (_resource_path o) (last_blink_led o)
    (_delivery_location o) (_navigator_finished o) (_navigator_feed o).

Definition set_init_requested (v : bool) (o : StateManager) : StateManager :=
  mkStateManager (_current_state o) (_initialized o) (_previous_button o) v
    (_delivery_order_received o) (_customer_confirm o) (_order_in_progress o)
    (_nav_kitchen_timeout o) (_nav_table_timeout o) (_nav_retry o)
    (_nav_table_distance o) (_resource_path o) (last_blink_led o)
    (_delivery_location o) (_navigator_finished o) (_navigator_feed o).

Definition set_delivery_order_received (v : bool) (o : StateManager)
  : StateManager :=
  mkStateManager (_current_state o) (_initialized o) (_previous_button o)
    (_init_requested o) v (_customer_confirm o) (_order_in_progress o)
    (_nav_kitchen_timeout o) (_nav_table_timeout o) (_nav_retry o)
    (_nav_table_distance o) (_resource_path o) (last_blink_led o)
    (_delivery_location o) (_navigator_finished o) (_navigator_feed o).

Definition set_customer_confirm (v : bool) (o : StateManager) : StateManager :=
  mkStateManager (_current_state o) (_initialized o) (_previous_button o)
    (_init_requested o) (_delivery_order_received o) v (_order_in_progress o)
    (_nav_kitchen_timeout o) (_nav_table_timeout o) (_nav_retry o)
    (_nav_table_distance o) (_resource_path o) (last_blink_led o)
    (_delivery_location o) (_navigator_finished o) (_navigator_feed o).

Definition set_order_in_progress (v : bool) (o : StateManager) : StateManager :=
  mkStateManager (_current_state o) (_initialized o) (_previous_button o)
    (_init_requested o) (_delivery_order_received o) (_customer_confirm o) v
    (_nav_kitchen_timeout o) (_nav_table_timeout o) (_nav_retry o)
    (_nav_table_distance o) (_resource_path o) (last_blink_led o)
    (_delivery_location o) (_navigator_finished o) (_navigator_feed o).

Definition set_last_blink_led (v : Z) (o : StateManager) : StateManager :=
  mkStateManager (_current_state o) (_initialized o) (_previous_button o)
    (_init_requested o) (_delivery_order_received o) (_customer_confirm o)
    (_order_in_progress o) (_nav_kitchen_timeout o) (_nav_table_timeout o)
    (_nav_retry o) (_nav_table_distance o) (_resource_path o) v
    (_delivery_location o) (_navigator_finished o) (_navigator_feed o).

Definition set_delivery_location (v : option string) (o : StateManager)
  : StateManager :=
  mkStateManager (_current_state o) (_initialized o) (_previous_button o)
    (_init_requested o) (_delivery_order_received o) (_customer_confirm o)
    (_order_in_progress o) (_nav_kitchen_timeout o) (_nav_table_timeout o)
    (_nav_retry o) (_nav_table_distance o) (_resource_path o)
    (last_blink_led o) v (_navigator_finished o) (_navigator_feed o).

Definition set_navigator_finished (v : option bool) (o : StateManager)
  : StateManager :=
  mkStateManager (_current_state o) (_initialized o) (_previous_button o)
    (_init_requested o) (_delivery_order_received o) (_customer_confirm o)
    (_order_in_progress o) (_nav_kitchen_timeout o) (_nav_table_timeout o)
    (_nav_retry o) (_nav_table_distance o) (_resource_path o)
    (last_blink_led o) (_delivery_location o) v (_navigator_feed o).

Definition set_navigator_feed (v : option NavigatorFeed) (o : StateManager)
  : StateManager :=
  mkStateManager (_current_state o) (_initialized o) (_previous_button o)
    (_init_requested o) (_delivery_order_received o) (_customer_confirm o)
    (_order_in_progress o) (_nav_kitchen_timeout o) (_nav_table_timeout o)
    (_nav_retry o) (_nav_table_distance o) (_resource_path o)
    (last_blink_led o) (_delivery_location o) (_navigator_finished o) v.

(** [_init_variables] and [_init_led_blinkder]: the object a constructor
    call leaves. *)
Definition _init_variables (p : Params) : StateManager :=
  {| _current_state := STATE_ON_ERROR;
     _initialized := false;
     _previous_button := None;
     _init_requested := false;
     _delivery_order_received := false;
     _customer_confirm := false;
     _order_in_progress := false;
     _nav_kitchen_timeout := param_nav_kitchen_timeout p;
     _nav_table_timeout := param_nav_table_timeout p;
     _nav_retry := param_nav_retry p;
     _nav_table_distance := param_nav_table_distance p;
     _resource_path := param_resource_path p;
     last_blink_led := 2;
     _delivery_location := None;
     _navigator_finished := None;
     _navigator_feed := None |}.

(** ** What a method does to the outside *)

(** The calls that leave the object, in the order they are made.
    [Assign_current_state] is not a call: it records each execution of an
    assignment [self._current_state = ...], so that the writers of the state
    can be counted. *)
Inductive Action : Type :=
| Assign_current_state (s : RobotState)
| Publish_debug (text : string)
| Publish_localize
| Publish_led1 (c : Led)
| Publish_led2 (c : Led)
| Send_goal (g : NavigateToGoal)
| Accept_new_goal
| Set_succeeded (r : DeliverOrderResult)
| Publish_feedback (st : RobotState) (feed : NavigatorFeed)
| Play_sound (path file : string).

Inductive PyExn : Type :=
| AttributeError (attr : string).

(** ** The monad of methods *)

Inductive Outcome (A : Type) : Type :=
| Returned (a : A)
| Raised (e : PyExn).
Arguments Returned {A} a.
Arguments Raised {A} e.

Record Run (A : Type) : Type := mkRun {
  outcome : Outcome A;
  object : StateManager;
  actions : list Action
}.
Arguments mkRun {A} _ _ _.
Arguments outcome {A} _.
Arguments object {A} _.
Arguments actions {A} _.

Definition M (A : Type) : Type := StateManager -> Run A.

Definition ret {A : Type} (a : A) : M A :=
  fun self => mkRun (Returned a) self [].

Definition bind {A B : Type} (c : M A) (k : A -> M B) : M B :=
  fun self =>
    match c self with
    | mkRun (Returned a) o acts =>
        match k a o with
        | mkRun out o' acts' => mkRun out o' (acts ++ acts')
        end
    | mkRun (Raised e) o acts => mkRun (Raised e) o acts
    end.

Declare Scope py_scope.
Delimit Scope py_scope with py.
Notation "x <- c ;; k" := (bind c (fun x => k))
  (at level 61, c at next level, right associativity) : py_scope.
Notation "c ;; k" := (bind c (fun _ => k))
  (at level 61, right associativity) : py_scope.
Local Open Scope py_scope.

(** [self.attr] for an attribute the constructor assigns. *)
Definition read {A : Type} (attr : StateManager -> A) : M A :=
  fun self => mkRun (Returned (attr self)) self [].

(** [self.attr] for an attribute that may not exist yet. *)
Definition getattr {A : Type} (name : string) (attr : StateManager -> option A)
  : M A :=
  fun self =>
    match attr self with
    | Some v => mkRun (Returned v) self []
    | None => mkRun (Raised (AttributeError name)) self []
    end.

(** [self.attr = v]. *)
Definition store (setter : StateManager -> StateManager) : M unit :=
  fun self => mkRun (Returned tt) (setter self) [].

Definition call (a : Action) : M unit :=
  fun self => mkRun (Returned tt) self [a].

Definition when (b : bool) (c : M unit) : M unit :=
  if b then c else ret tt.

(** [self._current_state = s]. *)
Definition assign_current_state (s : RobotState) : M unit :=
  store (set_current_state s) ;; call (Assign_current_state s).

(** [play_sound(self._resource_path, file)] of [utils]. *)
Definition play_sound (file : string) : M unit :=
  path <- read _resource_path ;;
  call (Play_sound path file).

(** ** The methods of [StateManager] *)

(** Modelled from the spec: [check_button_event] of [utils], which is not
    part of the sources at hand.  The spec describes it as rising-edge
    detection on consecutive raw samples, giving the pulses
    (greenPressed, redPressed); the comment in [_process_button] puts the
    green button on channel 0 and the red one on channel 1. *)
Definition check_button_event (prev cur : DigitalInputEvent) : bool * bool :=
  let '(p0, p1, _, _) := values prev in
  let '(c0, c1, _, _) := values cur in
  (negb p0 && c0, negb p1 && c1).

Definition _process_button (msg : DigitalInputEvent) : M unit :=
  prev <- read _previous_button ;;
  match prev with
  | None => store (set_previous_button (Some msg))
  | Some previous =>
      let '(green, red) := check_button_event previous msg in
      when green
        (st <- read _current_state ;;
         when (py_not_str (state_name st))
           (assign_current_state STATE_INITIALIZATION) ;;
         st <- read _current_state ;;
         when (RobotState_eqb st STATE_ON_ERROR)
           (assign_current_state STATE_INITIALIZATION) ;;
         st <- read _current_state ;;
         when (RobotState_eqb st STATE_AT_TABLE)
           (store (set_customer_confirm true))) ;;
      store (set_previous_button (Some msg))
  end.

Definition _process_localized : M unit :=
  store (set_initialized true).

Definition not_at_kitchen_message : string :=
  "Robot is not at kitchen. Ignore the order!".

(** [goal] is what [accept_new_goal()] hands over: the order that made the
    action server run this goal callback. *)
Definition _process_deliver_order (goal : DeliverOrderGoal) : M unit :=
  st <- read _current_state ;;
  if negb (RobotState_eqb st STATE_AT_KITCHEN) then
    call Accept_new_goal ;;
    call (Set_succeeded {| message := not_at_kitchen_message; success := false |})
  else
    call Accept_new_goal ;;
    store (set_delivery_location (Some (location goal))) ;;
    store (set_delivery_order_received true).

Definition _process_deliver_order_preempt : M unit :=
  ret tt.

Definition _logging : M unit :=
  st <- read _current_state ;;
  call (Publish_debug (state_name st)) ;;
  in_progress <- read _order_in_progress ;;
  when in_progress
    (st <- read _current_state ;;
     feed <- getattr "_navigator_feed" _navigator_feed ;;
     call (Publish_feedback st feed)).

Definition _request_navigator (loc : string) (approach_type : ApproachType)
    (num_retry timeout distance : pynum) : M unit :=
  call (Send_goal {| goal_location := loc;
                     goal_approach_type := approach_type;
                     goal_num_retry := num_retry;
                     goal_timeout := py_float timeout;
                     goal_distance := distance |}) ;;
  store (set_navigator_finished (Some false)).

Definition _navigator_done (result : NavigateToResult) : M unit :=
  when (Bool.eqb (res_success result) false)
    (play_sound _navi_failed_sound ;;
     assign_current_state STATE_ON_ERROR) ;;
  store (set_navigator_finished (Some true)).

Definition _navigator_feedback (feedback : NavigateToFeedback) : M unit :=
  store (set_navigator_feed
           (Some {| feed_distance := fb_distance feedback;
                    feed_message := fb_message feedback |})) ;;
  when (match fb_status feedback with STATUS_RETRY => true | _ => false end)
    (play_sound _retry_sound).

Definition _state_initialization : M unit :=
  requested <- read _init_requested ;;
  when (negb requested)
    (store (set_initialized false) ;;
     call Publish_localize ;;
     store (set_init_requested true) ;;
     play_sound _confirm_sound) ;;
  localized <- read _initialized ;;
  when localized
    (retry <- read _nav_retry ;;
     timeout <- read _nav_kitchen_timeout ;;
     _request_navigator "kitchen" APPROACH_ON retry timeout (PyFloat 0) ;;
     assign_current_state STATE_GOTO_KITCHEN ;;
     store (set_init_requested false)).

Definition _state_goto_kitchen : M unit :=
  finished <- getattr "_navigator_finished" _navigator_finished ;;
  when finished
    (assign_current_state STATE_AT_KITCHEN ;;
     in_progress <- read _order_in_progress ;;
     when in_progress
       (store (set_order_in_progress false) ;;
        call (Set_succeeded {| message := "Delivery Success!";
                               success := false |})) ;;
     play_sound _bab_sound).

Definition _state_at_kitchen : M unit :=
  received <- read _delivery_order_received ;;
  when received
    (store (set_delivery_order_received false) ;;
     store (set_order_in_progress true) ;;
     dest <- getattr "_delivery_location" _delivery_location ;;
     retry <- read _nav_retry ;;
     timeout <- read _nav_table_timeout ;;
     distance <- read _nav_table_distance ;;
     _request_navigator dest APPROACH_ON retry timeout distance ;;
     assign_current_state STATE_GOTO_TABLE ;;
     play_sound _confirm_sound).

Definition _state_goto_table : M unit :=
  finished <- getattr "_navigator_finished" _navigator_finished ;;
  when finished
    (assign_current_state STATE_AT_TABLE ;;
     play_sound _at_table_sound).

Definition _state_at_table : M unit :=
  confirm <- read _customer_confirm ;;
  when confirm
    (store (set_customer_confirm false) ;;
     play_sound _enjoy_meal_sound ;;
     _request_navigator "kitchen" APPROACH_ON (PyInt 3) (PyInt 300) (PyFloat 0) ;;
     assign_current_state STATE_GOTO_KITCHEN).

Definition _state_on_error : M unit :=
  ret tt.

(** The table [_states] built by [_init_states]. *)
Definition _states (s : RobotState) : M unit :=
  match s with
  | STATE_INITIALIZATION => _state_initialization
  | STATE_GOTO_KITCHEN => _state_goto_kitchen
  | STATE_AT_KITCHEN => _state_at_kitchen
  | STATE_GOTO_TABLE => _state_goto_table
  | STATE_AT_TABLE => _state_at_table
  | STATE_ON_ERROR => _state_on_error
  end.

Definition _blink_leds : M unit :=
  last <- read last_blink_led ;;
  store (set_last_blink_led (last mod 2 + 1)) ;;
  st <- read _current_state ;;
  last <- read last_blink_led ;;
  if RobotState_eqb st STATE_ON_ERROR then
    call (Publish_led1 (if last =? 1 then BLACK else RED)) ;;
    call (Publish_led2 (if last =? 1 then RED else BLACK))
  else
    call (Publish_led1 (if last =? 1 then BLACK else GREEN)) ;;
    call (Publish_led2 (if last =? 1 then GREEN else BLACK)).

(** One call of the current state's handler: the first statement of the
    loop body of [spin]. *)
Definition tick : M unit :=
  st <- read _current_state ;;
  _states st.

(** One pass through the body of the [while] loop of [spin], from the
    counter [t] to its next value. *)
Definition spin_body (t : Z) : M Z :=
  tick ;;
  let t := t mod 5 + 1 in
  when (t =? 1) (_logging ;; _blink_leds) ;;
  ret t.

(** ** Callbacks that run during a pass of the loop *)

(** rospy and actionlib run the callbacks on threads of their own and the
    node takes no lock, so a callback can run while a pass of the loop is
    under way.  Two windows of a pass are modelled, [cb] being what the
    callback does there: between the read of [self._current_state] that
    picks the handler (l.162) and the handler's first statement, and between
    [send_goal] (l.196) and the assignments that follow it. *)
Inductive Window : Type := After_dispatch | After_send_goal.

(** [_request_navigator] with [cb] run between l.196 and l.197. *)
Definition _request_navigator_with (cb : M unit) (loc : string)
    (approach_type : ApproachType) (num_retry timeout distance : pynum)
  : M unit :=
  call (Send_goal {| goal_location := loc;
                     goal_approach_type := approach_type;
                     goal_num_retry := num_retry;
                     goal_timeout := py_float timeout;
                     goal_distance := distance |}) ;;
  cb ;;
  store (set_navigator_finished (Some false)).

Definition _state_initialization_with (cb : M unit) : M unit :=
  requested <- read _init_requested ;;
  when (negb requested)
    (store (set_initialized false) ;;
     call Publish_localize ;;
     store (set_init_requested true) ;;
     play_sound _confirm_sound) ;;
  localized <- read _initialized ;;
  when localized
    (retry <- read _nav_retry ;;
     timeout <- read _nav_kitchen_timeout ;;
     _request_navigator_with cb "kitchen" APPROACH_ON retry timeout (PyFloat 0) ;;
     assign_current_state STATE_GOTO_KITCHEN ;;
     store (set_init_requested false)).

Definition _state_at_kitchen_with (cb : M unit) : M unit :=
  received <- read _delivery_order_received ;;
  when received
    (store (set_delivery_order_received false) ;;
     store (set_order_in_progress true) ;;
     dest <- getattr "_delivery_location" _delivery_location ;;
     retry <- read _nav_retry ;;
     timeout <- read _nav_table_timeout ;;
     distance <- read _nav_table_distance ;;
     _request_navigator_with cb dest APPROACH_ON retry timeout distance ;;
     assign_current_state STATE_GOTO_TABLE ;;
     play_sound _confirm_sound).

Definition _state_at_table_with (cb : M unit) : M unit :=
  confirm <- read _customer_confirm ;;
  when confirm
    (store (set_customer_confirm false) ;;
     play_sound _enjoy_meal_sound ;;
     _request_navigator_with cb "kitchen" APPROACH_ON (PyInt 3) (PyInt 300)
       (PyFloat 0) ;;
     assign_current_state STATE_GOTO_KITCHEN).

(** The handlers that send a goal, with [cb] in their window; the other
    three send none. *)
Definition _states_with (cb : M unit) (s : RobotState) : M unit :=
  match s with
  | STATE_INITIALIZATION => _state_initialization_with cb
  | STATE_AT_KITCHEN => _state_at_kitchen_with cb
  | STATE_AT_TABLE => _state_at_table_with cb
  | STATE_GOTO_KITCHEN | STATE_GOTO_TABLE | STATE_ON_ERROR => _states s
  end.

(** The handler call of one pass (l.162) with [cb] run in the window [w]. *)
Definition tick_with (w : Window) (cb : M unit) : M unit :=
  st <- read _current_state ;;
  match w with
  | After_dispatch => cb ;; _states st
  | After_send_goal => _states_with cb st
  end.

(** ** The node and its environment *)

(** What can happen to the node: the loop of [spin] makes one pass, or ROS
    runs one of the registered callbacks.  A history of the node is a list
    of such events, each run from its first statement to its last before the
    next one starts; a callback that runs in the middle of a pass is not a
    history of this kind, it is what [tick_with] above describes. *)
Inductive Event : Type :=
| Tick
| Button (msg : DigitalInputEvent)
| Localized
| Order (goal : DeliverOrderGoal)
| OrderPreempt
| NavDone (result : NavigateToResult)
| NavFeedback (feedback : NavigateToFeedback).

(** The method an event runs; [t] is the loop counter of [spin], which only
    the loop itself advances. *)
Definition handle (e : Event) (t : Z) : M Z :=
  match e with
  | Tick => spin_body t
  | Button msg => _process_button msg ;; ret t
  | Localized => _process_localized ;; ret t
  | Order goal => _process_deliver_order goal ;; ret t
  | OrderPreempt => _process_deliver_order_preempt ;; ret t
  | NavDone result => _navigator_done result ;; ret t
  | NavFeedback feedback => _navigator_feedback feedback ;; ret t
  end.

(** The running node: the object, the local [t] of [spin], whether the
    navigator's action client holds a goal whose [done_cb] has not run yet,
    the exception that ended [spin] if one did, and everything sent so far
    (oldest first). *)
Record Node : Type := mkNode {
  self : StateManager;
  loop_t : Z;
  goal_pending : bool;
  spin_raised : option PyExn;
  sent : list Action
}.

(** The node when [spin] enters its loop: [t = 2], nothing sent. *)
Definition boot (p : Params) : Node :=
  {| self := _init_variables p;
     loop_t := 2;
     goal_pending := false;
     spin_raised := None;
     sent := [] |}.

Definition is_send_goal (a : Action) : bool :=
  match a with Send_goal _ => true | _ => false end.

Definition is_assign_current_state (a : Action) : bool :=
  match a with Assign_current_state _ => true | _ => false end.

Definition is_set_succeeded (a : Action) : bool :=
  match a with Set_succeeded _ => true | _ => false end.

Definition is_publish_localize (a : Action) : bool :=
  match a with Publish_localize => true | _ => false end.

(** How many times a method assigned [self._current_state]. *)
Definition state_writes (l : list Action) : nat :=
  length (filter is_assign_current_state l).

Definition goals_sent (l : list Action) : list Action :=
  filter is_send_goal l.

Definition results_reported (l : list Action) : list Action :=
  filter is_set_succeeded l.

Definition step (e : Event) (n : Node) : Node :=
  let r := handle e (loop_t n) (self n) in
  {| self := object r;
     loop_t := match outcome r with
               | Returned t' => t'
               | Raised _ => loop_t n
               end;
     goal_pending :=
       if existsb is_send_goal (actions r) then true
       else match e with
            | NavDone _ => false
            | _ => goal_pending n
            end;
     spin_raised := match outcome r with
                    | Returned _ => spin_raised n
                    | Raised x => Some x
                    end;
     sent := sent n ++ actions r |}.

(** The environment's side of the protocol: the navigator calls back only
    for a goal it holds, its terminal callback comes once per goal, and
    nothing runs any more once an exception has left [spin]. *)
Definition enabled (e : Event) (n : Node) : bool :=
  match spin_raised n with
  | Some _ => false
  | None =>
      match e with
      | NavDone _ | NavFeedback _ => goal_pending n
      | _ => true
      end
  end.

Fixpoint run (evs : list Event) (n : Node) : Node :=
  match evs with
  | [] => n
  | e :: evs' => run evs' (step e n)
  end.

Fixpoint admissible (evs : list Event) (n : Node) : bool :=
  match evs with
  | [] => true
  | e :: evs' => enabled e n && admissible evs' (step e n)
  end.

(** The previous raw button sample after an event. *)
Definition next_sample (prev : option DigitalInputEvent) (e : Event)
  : option DigitalInputEvent :=
  match e with
  | Button msg => Some msg
  | _ => prev
  end.

(** Whether an event is a button sample with a green rising edge over the
    previous sample [prev]; the first sample ever has none. *)
Definition green_edge (prev : option DigitalInputEvent) (e : Event) : bool :=
  match e, prev with
  | Button msg, Some p => fst (check_button_event p msg)
  | _, _ => false
  end.

(** A history without a green rising edge, [prev] being the previous raw
    sample when it starts. *)
Fixpoint no_green_edge (prev : option DigitalInputEvent) (evs : list Event)
  : bool :=
  match evs with
  | [] => true
  | e :: evs' =>
      negb (green_edge prev e) && no_green_edge (next_sample prev e) evs'
  end.

(** What holds of the object between two events as long as [spin] runs:
    a goal is pending only on the way to the kitchen or to a table, and there
    [_navigator_finished] says whether it still is; an order is in progress
    nowhere at the kitchen; a received order waits at the kitchen, with its
    location. *)
Definition consistent (o : StateManager) (pending : bool) : Prop :=
  match _current_state o with
  | STATE_GOTO_KITCHEN | STATE_GOTO_TABLE =>
      _navigator_finished o = Some (negb pending)
  | _ => pending = false
  end
  /\ (_current_state o = STATE_AT_KITCHEN -> _order_in_progress o = false)
  /\ (_delivery_order_received o = true ->
      _current_state o = STATE_AT_KITCHEN /\ _delivery_location o <> None).

(** The invariant proper: it is only claimed while [spin] is running. *)
Definition invariant (n : Node) : Prop :=
  spin_raised n = None -> consistent (self n) (goal_pending n).

(** The result the goal callback reports for an order it turns down. *)
Definition rejection : DeliverOrderResult :=
  {| message := not_at_kitchen_message; success := false |}.

(** ** Vocabulary of the properties *)

(** The colour [_blink_leds] lights in a state: red in ON_ERROR, green
    elsewhere. *)
Definition lit_colour (s : RobotState) : Led :=
  if RobotState_eqb s STATE_ON_ERROR then RED else GREEN.

(** Whether the handler of the current state has nothing to act on: the
    localization is requested and not yet confirmed, the navigation is not
    finished, no order is received, the customer has not confirmed. *)
Definition waiting (o : StateManager) : bool :=
  match _current_state o with
  | STATE_INITIALIZATION => _init_requested o && negb (_initialized o)
  | STATE_GOTO_KITCHEN | STATE_GOTO_TABLE =>
      match _navigator_finished o with
      | Some finished => negb finished
      | None => false
      end
  | STATE_AT_KITCHEN => negb (_delivery_order_received o)
  | STATE_AT_TABLE => negb (_customer_confirm o)
  | STATE_ON_ERROR => true
  end.

(** A result reported to the order's caller that says the order failed. *)
Definition reports_failure (a : Action) : bool :=
  match a with
  | Set_succeeded r => negb (success r)
  | _ => true
  end.

Definition is_publish_debug (a : Action) : bool :=
  match a with Publish_debug _ => true | _ => false end.

Definition is_tick (e : Event) : bool :=
  match e with Tick => true | _ => false end.

(** How many passes of the loop of [spin] a history holds. *)
Fixpoint ticks (evs : list Event) : Z :=
  match evs with
  | [] => 0
  | Tick :: evs' => 1 + ticks evs'
  | _ :: evs' => ticks evs'
  end.

(** The state a handler assigns when it moves on. *)
Definition next_state (s : RobotState) : option RobotState :=
  match s with
  | STATE_INITIALIZATION => Some STATE_GOTO_KITCHEN
  | STATE_GOTO_KITCHEN => Some STATE_AT_KITCHEN
  | STATE_AT_KITCHEN => Some STATE_GOTO_TABLE
  | STATE_GOTO_TABLE => Some STATE_AT_TABLE
  | STATE_AT_TABLE => Some STATE_GOTO_KITCHEN
  | STATE_ON_ERROR => None
  end.

(** The assignments to [self._current_state] a method made, in order. *)
Definition state_assignments (l : list Action) : list Action :=
  filter is_assign_current_state l.

(** Whether a method assigned nothing but [s] to [self._current_state]. *)
Definition assigns_only (s : RobotState) (l : list Action) : bool :=
  forallb (fun a => match a with
                    | Assign_current_state s' => RobotState_eqb s' s
                    | _ => true
                    end) l.

(** ** Sample inputs *)

Definition released : DigitalInputEvent :=
  {| values := (false, false, false, false) |}.
Definition green_pressed : DigitalInputEvent :=
  {| values := (true, false, false, false) |}.

Definition nav_ok : NavigateToResult :=
  {| res_success := true; res_message := "arrived" |}.
Definition nav_failed : NavigateToResult :=
  {| res_success := false; res_message := "no path" |}.
Definition progress : NavigateToFeedback :=
  {| fb_distance := PyFloat 2; fb_message := "moving";
     fb_status := STATUS_INPROGRESS |}.

Definition params0 : Params := default_params "/opt/sounds".

(** Green button and localization: the robot is on its way to the kitchen,
    the navigator holds the goal. *)
Definition leaving : list Event :=
  [Button released; Button green_pressed; Tick; Localized; Tick].

(** A localization report that comes before the green button. *)
Definition early_localized : list Event :=
  [Localized; Button released; Button green_pressed].

(** An order taken at the kitchen and picked up by the loop, while the
    navigator never sent any feedback. *)
Definition silent_navigator : list Event :=
  [Button released; Button green_pressed; Tick; Localized; Tick;
   NavDone nav_ok; Tick; Order {| location := "table-3" |}; Tick].

(** Green button, localization, navigation to the kitchen. *)
Definition to_kitchen : list Event :=
  [Button released; Button green_pressed; Tick; Localized; Tick;
   NavFeedback progress; NavDone nav_ok; Tick].

(** The full round trip: to the kitchen, an order for "table-3", delivery,
    confirmation by the customer, and back to the kitchen. *)
Definition round_trip : list Event :=
  to_kitchen ++
  [Order {| location := "table-3" |}; Tick; NavDone nav_ok; Tick;
   Button released; Button green_pressed; Tick; NavDone nav_ok; Tick].

(** * Properties *)

(** ** Running methods symbolically *)

Ltac unfold_methods :=
  unfold handle, spin_body, tick, _states,
    _process_button, _process_localized, _process_deliver_order,
    _process_deliver_order_preempt, _logging, _blink_leds,
    _request_navigator, _navigator_done, _navigator_feedback,
    _state_initialization, _state_goto_kitchen, _state_at_kitchen,
    _state_goto_table, _state_at_table, _state_on_error,
    assign_current_state, play_sound, when, getattr, read, store, call,
    bind, ret in *.

(** Follow the branches a method takes on an object whose fields are
    variables. *)
Ltac follow_branches :=
  repeat (cbn;
          match goal with
          | |- context [if ?b then _ else _] => is_var b; destruct b
          | |- context [match ?x with _ => _ end] => is_var x; destruct x
          | |- context [if negb ?b then _ else _] => is_var b; destruct b
          | |- context [if (?a =? ?c)%Z then _ else _] =>
              destruct (a =? c)%Z eqn:?
          | |- context [state_name ?s] => is_var s; destruct s
          | |- context [RobotState_eqb ?s _] => is_var s; destruct s
          | |- context [res_success ?r] => is_var r; destruct r as [[] ?]
          | |- context [fb_status ?f] => is_var f; destruct f as [? ? []]
          | |- context [check_button_event ?a ?b] =>
              destruct (check_button_event a b) as [? ?] eqn:?
          end).

Ltac run_method := unfold_methods; follow_branches.

Ltac unfold_with :=
  unfold tick_with, _states_with, _state_initialization_with,
    _state_at_kitchen_with, _state_at_table_with, _request_navigator_with
    in *.

(** With nothing run in the window, the pass is the pass of the source. *)
Lemma tick_with_nothing (w : Window) (o : StateManager) :
  tick_with w (ret tt) o = tick o.
Proof.
  destruct o as [st ini pb ir dor cc oip kt tt' nr td rp lbl dl nf feed].
  destruct w; unfold_with; run_method; reflexivity.
Qed.

Lemma RobotState_eqb_eq (a b : RobotState) :
  RobotState_eqb a b = true <-> a = b.
Proof. destruct a, b; cbn; split; congruence. Qed.

Lemma state_name_not_empty (s : RobotState) : py_not_str (state_name s) = false.
Proof. destruct s; reflexivity. Qed.

Lemma run_app (evs1 evs2 : list Event) (n : Node) :
  run (evs1 ++ evs2) n = run evs2 (run evs1 n).
Proof.
  revert n; induction evs1 as [|e evs1 IH]; intros n; cbn; [reflexivity|].
  apply IH.
Qed.

Lemma admissible_app (evs1 evs2 : list Event) (n : Node) :
  admissible (evs1 ++ evs2) n =
  admissible evs1 n && admissible evs2 (run evs1 n).
Proof.
  revert n; induction evs1 as [|e evs1 IH]; intros n; cbn; [reflexivity|].
  rewrite IH, andb_assoc; reflexivity.
Qed.

(** ** The invariant of the running node *)

Lemma consistent_boot (p : Params) :
  consistent (self (boot p)) (goal_pending (boot p)).
Proof. cbv [consistent boot self goal_pending _init_variables _current_state
            _delivery_order_received]. repeat split; congruence. Qed.

Lemma invariant_boot (p : Params) : invariant (boot p).
Proof. intros _; apply consistent_boot. Qed.

Lemma invariant_step (e : Event) (n : Node) :
  enabled e n = true -> invariant n -> invariant (step e n).
Proof.
  destruct n as [o t pending raised snt].
  destruct o as [st ini pb ir dor cc oip kt tt' nr td rp lbl dl nf feed].
  unfold invariant, enabled, consistent, step; cbn.
  destruct raised; [discriminate|].
  intros Hen Hinv; destruct (Hinv eq_refl) as (Hnav & Hoip & Hord); clear Hinv.
  destruct e; cbn in Hen; run_method.
  all: try discriminate.
  all: intros _; try destruct st; try destruct pending; try destruct dor;
    cbn in *; intuition congruence.
Qed.

Lemma invariant_run (evs : list Event) (n : Node) :
  admissible evs n = true -> invariant n -> invariant (run evs n).
Proof.
  revert n; induction evs as [|e evs IH]; intros n Hadm Hinv; cbn in *.
  - exact Hinv.
  - apply andb_true_iff in Hadm as [He Hadm].
    apply IH; [exact Hadm|]. apply invariant_step; assumption.
Qed.

Lemma enabled_running (e : Event) (n : Node) :
  enabled e n = true -> spin_raised n = None.
Proof. unfold enabled; destruct (spin_raised n); [discriminate|reflexivity]. Qed.

(** A node that an admissible history leads to and that can still take an
    event is consistent. *)
Lemma consistent_before (p : Params) (evs : list Event) (e : Event) :
  admissible (evs ++ [e]) (boot p) = true ->
  enabled e (run evs (boot p)) = true /\
  consistent (self (run evs (boot p))) (goal_pending (run evs (boot p))).
Proof.
  rewrite admissible_app; cbn; rewrite andb_true_r.
  intros H; apply andb_true_iff in H as [Hadm He]; split; [exact He|].
  apply (invariant_run evs (boot p) Hadm (invariant_boot p)).
  apply (enabled_running e), He.
Qed.

(** ** Orders *)

(** C6: an order that arrives while the current state is not AT_KITCHEN is
    turned down on the spot: the goal callback reports a result with
    [success = False] and the explanatory message to the caller, raises
    nothing, and leaves the whole object, so in particular the delivery
    location and the order-received flag, as it was. *)
Theorem order_away_from_kitchen_rejected
    (o : StateManager) (goal : DeliverOrderGoal) :
  _current_state o <> STATE_AT_KITCHEN ->
  let r := _process_deliver_order goal o in
  outcome r = Returned tt /\
  actions r = [Accept_new_goal; Set_succeeded rejection] /\
  success rejection = false /\
  message rejection <> "" /\
  object r = o /\
  _delivery_location (object r) = _delivery_location o /\
  _delivery_order_received (object r) = _delivery_order_received o.
Proof.
  intros Hst; destruct o as [st ini pb ir dor cc oip kt tt' nr td rp lbl dl nf fd].
  cbn in Hst; destruct st; try congruence; cbn; repeat split; discriminate.
Qed.

Lemma order_away_from_kitchen_rejected_witness :
  _current_state (self (boot params0)) <> STATE_AT_KITCHEN /\
  actions (_process_deliver_order {| location := "table-3" |}
             (self (boot params0))) =
  [Accept_new_goal; Set_succeeded rejection].
Proof.
  split; [discriminate|].
  apply (order_away_from_kitchen_rejected (self (boot params0))
           {| location := "table-3" |}).
  discriminate.
Defined.

(** C4, as stated, fails: a second order that arrives at the kitchen before
    the loop has picked up the first one is accepted like the first, and its
    location replaces the first order's.  And an order that arrives while the
    loop is starting the first delivery (after [send_goal], before the state
    is assigned) is accepted too, with the first order already in progress:
    it waits in the object for the robot's return to the kitchen. *)
Lemma second_order_replaces_pending_one :
  admissible (to_kitchen ++ [Order {| location := "table-3" |};
                             Order {| location := "table-5" |}])
    (boot params0) = true /\
  _delivery_order_received
    (self (run (to_kitchen ++ [Order {| location := "table-3" |}])
             (boot params0))) = true /\
  _delivery_location
    (self (run (to_kitchen ++ [Order {| location := "table-3" |}])
             (boot params0))) = Some "table-3" /\
  actions (_process_deliver_order {| location := "table-5" |}
             (self (run (to_kitchen ++ [Order {| location := "table-3" |}])
                      (boot params0)))) = [Accept_new_goal] /\
  _delivery_location
    (self (run (to_kitchen ++ [Order {| location := "table-3" |};
                               Order {| location := "table-5" |}])
             (boot params0))) = Some "table-5" /\
  actions (tick_with After_send_goal
             (_process_deliver_order {| location := "table-5" |})
             (self (run (to_kitchen ++ [Order {| location := "table-3" |}])
                      (boot params0)))) =
    [Send_goal {| goal_location := "table-3";
                  goal_approach_type := APPROACH_ON;
                  goal_num_retry := PyInt 3;
                  goal_timeout := PyFloat 300;
                  goal_distance := PyFloat 5 |};
     Accept_new_goal;
     Assign_current_state STATE_GOTO_TABLE;
     Play_sound "/opt/sounds" "kaku.wav"] /\
  _order_in_progress
    (object (tick_with After_send_goal
               (_process_deliver_order {| location := "table-5" |})
               (self (run (to_kitchen ++ [Order {| location := "table-3" |}])
                        (boot params0))))) = true /\
  _delivery_order_received
    (object (tick_with After_send_goal
               (_process_deliver_order {| location := "table-5" |})
               (self (run (to_kitchen ++ [Order {| location := "table-3" |}])
                        (boot params0))))) = true /\
  _delivery_location
    (object (tick_with After_send_goal
               (_process_deliver_order {| location := "table-5" |})
               (self (run (to_kitchen ++ [Order {| location := "table-3" |}])
                        (boot params0))))) = Some "table-5".
Proof. vm_compute. repeat split. Qed.

(** C4, amended: the goal callback looks at [_current_state] alone, not at
    the pending or running order.  In AT_KITCHEN every order is accepted,
    nothing is reported, and its location replaces whatever
    [_delivery_location] held.  In any other state the order is accepted on
    the action server, completed at once with [success = False], and no
    attribute of the object changes.  An order that arrives during the pass
    that starts a delivery, between [send_goal] and the assignment of
    GOTO_TABLE, still finds AT_KITCHEN: the goal already sent keeps the first
    location, and the object leaves the pass in GOTO_TABLE with the first
    order in progress and the second one received. *)
Theorem orders_guarded_by_state_alone
    (goal : DeliverOrderGoal) (o : StateManager) :
  (_current_state o = STATE_AT_KITCHEN ->
   outcome (_process_deliver_order goal o) = Returned tt /\
   actions (_process_deliver_order goal o) = [Accept_new_goal] /\
   object (_process_deliver_order goal o) =
     set_delivery_order_received true
       (set_delivery_location (Some (location goal)) o)) /\
  (_current_state o <> STATE_AT_KITCHEN ->
   outcome (_process_deliver_order goal o) = Returned tt /\
   actions (_process_deliver_order goal o) =
     [Accept_new_goal; Set_succeeded rejection] /\
   object (_process_deliver_order goal o) = o) /\
  (forall dest : string,
   _current_state o = STATE_AT_KITCHEN ->
   _delivery_order_received o = true ->
   _delivery_location o = Some dest ->
   outcome (tick_with After_send_goal (_process_deliver_order goal) o) =
     Returned tt /\
   actions (tick_with After_send_goal (_process_deliver_order goal) o) =
     [Send_goal {| goal_location := dest;
                   goal_approach_type := APPROACH_ON;
                   goal_num_retry := _nav_retry o;
                   goal_timeout := py_float (_nav_table_timeout o);
                   goal_distance := _nav_table_distance o |};
      Accept_new_goal;
      Assign_current_state STATE_GOTO_TABLE;
      Play_sound (_resource_path o) _confirm_sound] /\
   object (tick_with After_send_goal (_process_deliver_order goal) o) =
     set_current_state STATE_GOTO_TABLE
       (set_navigator_finished (Some false)
          (set_delivery_order_received true
             (set_delivery_location (Some (location goal))
                (set_order_in_progress true o))))).
Proof.
  destruct o as [st ini pb ir dor cc oip kt tt' nr td rp lbl dl nf feed].
  cbn; repeat split.
  1-3: subst; reflexivity.
  1-3: destruct st; try congruence; reflexivity.
  all: subst; reflexivity.
Qed.

(** On the way back to the kitchen, the delivered order still in progress. *)
Lemma orders_guarded_by_state_alone_witness :
  _order_in_progress
    (self (run (to_kitchen ++ [Order {| location := "table-3" |}; Tick;
                               NavDone nav_ok; Tick;
                               Button released; Button green_pressed; Tick;
                               NavDone nav_ok])
             (boot params0))) = true /\
  actions (_process_deliver_order {| location := "table-5" |}
    (self (run (to_kitchen ++ [Order {| location := "table-3" |}; Tick;
                               NavDone nav_ok; Tick;
                               Button released; Button green_pressed; Tick;
                               NavDone nav_ok])
             (boot params0)))) =
  [Accept_new_goal; Set_succeeded rejection].
Proof.
  split; [reflexivity|].
  apply (orders_guarded_by_state_alone {| location := "table-5" |}
    (self (run (to_kitchen ++ [Order {| location := "table-3" |}; Tick;
                               NavDone nav_ok; Tick;
                               Button released; Button green_pressed; Tick;
                               NavDone nav_ok])
             (boot params0)))).
  discriminate.
Defined.

(** ** Navigation requests *)




(** ** Who writes the state *)

(** C8: one pass of the loop of [spin] executes at most one assignment to
    [_current_state], both in the handler call alone and in the whole loop
    body; a pass that executes none leaves the state as it was. *)
Theorem one_state_write_per_tick (o : StateManager) (t : Z) :
  (state_writes (actions (tick o)) <= 1)%nat /\
  (state_writes (actions (spin_body t o)) <= 1)%nat /\
  (state_writes (actions (spin_body t o)) = 0%nat ->
   _current_state (object (spin_body t o)) = _current_state o).
Proof.
  destruct o as [st ini pb ir dor cc oip kt tt' nr td rp lbl dl nf feed].
  unfold state_writes.
  repeat split; run_method; cbn; try lia; try reflexivity; discriminate.
Qed.

(** C1, as stated, fails: two callbacks assign [_current_state] themselves.
    The button callback moves ON_ERROR to INITIALIZATION on a green rising
    edge, and the navigator's done callback moves any state to ON_ERROR on a
    failed result. *)
Lemma callbacks_write_state :
  _current_state (self (run [Button released] (boot params0))) = STATE_ON_ERROR /\
  actions (_process_button green_pressed
             (self (run [Button released] (boot params0)))) =
  [Assign_current_state STATE_INITIALIZATION] /\
  _current_state
    (object (_process_button green_pressed
               (self (run [Button released] (boot params0))))) =
  STATE_INITIALIZATION /\
  admissible [Button released; Button green_pressed; Tick; Localized; Tick;
              NavDone nav_failed] (boot params0) = true /\
  _current_state
    (self (run [Button released; Button green_pressed; Tick; Localized; Tick]
             (boot params0))) = STATE_GOTO_KITCHEN /\
  state_writes
    (actions (_navigator_done nav_failed
                (self (run [Button released; Button green_pressed; Tick;
                            Localized; Tick] (boot params0))))) = 1%nat /\
  _current_state
    (self (run [Button released; Button green_pressed; Tick; Localized; Tick;
                NavDone nav_failed] (boot params0))) = STATE_ON_ERROR.
Proof. vm_compute. repeat split. Qed.

(** C1, amended: besides the six state handlers run by the loop, exactly two
    callbacks assign [_current_state].  The order, preempt, localization and
    navigation-feedback callbacks never do.  The button callback does so at
    most once, only in state ON_ERROR on a green rising edge, and only to
    INITIALIZATION.  The navigator's done callback does so exactly when the
    result is a failure, and only to ON_ERROR. *)
Theorem writers_of_current_state (o : StateManager) :
  (forall goal,
     state_writes (actions (_process_deliver_order goal o)) = 0%nat /\
     _current_state (object (_process_deliver_order goal o)) = _current_state o) /\
  (state_writes (actions (_process_deliver_order_preempt o)) = 0%nat /\
   _current_state (object (_process_deliver_order_preempt o)) = _current_state o) /\
  (state_writes (actions (_process_localized o)) = 0%nat /\
   _current_state (object (_process_localized o)) = _current_state o) /\
  (forall feedback,
     state_writes (actions (_navigator_feedback feedback o)) = 0%nat /\
     _current_state (object (_navigator_feedback feedback o)) = _current_state o) /\
  (forall msg,
     let r := _process_button msg o in
     (state_writes (actions r) = 0%nat /\
      _current_state (object r) = _current_state o) \/
     (actions r = [Assign_current_state STATE_INITIALIZATION] /\
      _current_state (object r) = STATE_INITIALIZATION /\
      _current_state o = STATE_ON_ERROR /\
      exists prev, _previous_button o = Some prev /\
                   fst (check_button_event prev msg) = true)) /\
  (forall result,
     let r := _navigator_done result o in
     if res_success result
     then state_writes (actions r) = 0%nat /\
          _current_state (object r) = _current_state o
     else filter is_assign_current_state (actions r) =
            [Assign_current_state STATE_ON_ERROR] /\
          _current_state (object r) = STATE_ON_ERROR).
Proof.
  destruct o as [st ini pb ir dor cc oip kt tt' nr td rp lbl dl nf feed].
  unfold state_writes.
  repeat split; try (run_method; cbn; reflexivity).
  - intros msg; cbv zeta.
    destruct pb as [prev|]; [|left; split; reflexivity].
    unfold _process_button; cbn.
    destruct (check_button_event prev msg) as [green red] eqn:Hev.
    destruct green; [|left; split; reflexivity].
    destruct st; try (left; split; reflexivity).
    right; cbn; repeat split. exists prev; rewrite Hev; split; reflexivity.
  - intros [[] msg]; cbn; split; reflexivity.
Qed.

(** ** The error state *)

(** A history without a green rising edge has none in any of its prefixes. *)
Lemma no_green_edge_prefix (prev : option DigitalInputEvent)
    (evs1 evs2 : list Event) :
  no_green_edge prev (evs1 ++ evs2) = true -> no_green_edge prev evs1 = true.
Proof.
  revert prev; induction evs1 as [|e evs1 IH]; intros prev; [reflexivity|].
  cbn [app no_green_edge]; intros H; apply andb_true_iff in H as [H1 H2].
  rewrite H1; cbn; apply (IH _ H2).
Qed.

(** In ON_ERROR nothing but a green rising edge has any effect on the state,
    and the node neither asks for localization nor sends a goal. *)
Lemma handle_in_error (e : Event) (t : Z) (o : StateManager) :
  _current_state o = STATE_ON_ERROR ->
  green_edge (_previous_button o) e = false ->
  _current_state (object (handle e t o)) = STATE_ON_ERROR /\
  _previous_button (object (handle e t o)) = next_sample (_previous_button o) e /\
  _order_in_progress (object (handle e t o)) = _order_in_progress o /\
  filter is_publish_localize (actions (handle e t o)) = [] /\
  goals_sent (actions (handle e t o)) = [] /\
  (_order_in_progress o = false ->
   exists t', outcome (handle e t o) = Returned t').
Proof.
  destruct o as [st ini pb ir dor cc oip kt tt' nr td rp lbl dl nf feed].
  unfold goals_sent; cbn; intros -> Hedge.
  destruct e; cbn in Hedge.
  3-7: run_method; cbn; repeat split; try congruence; eauto.
  - run_method; cbn; repeat split; try congruence; intros; try discriminate; eauto.
  - destruct pb as [prev|]; [|cbn; repeat split; eauto].
    unfold_methods; cbn in *.
    destruct (check_button_event prev msg) as [green red]; cbn in Hedge; subst.
    cbn; repeat split; eauto.
Qed.

(** The same, for one event of the running node. *)
Lemma step_in_error (e : Event) (n : Node) :
  _current_state (self n) = STATE_ON_ERROR ->
  green_edge (_previous_button (self n)) e = false ->
  _current_state (self (step e n)) = STATE_ON_ERROR /\
  _previous_button (self (step e n)) = next_sample (_previous_button (self n)) e /\
  _order_in_progress (self (step e n)) = _order_in_progress (self n) /\
  filter is_publish_localize (sent (step e n)) = filter is_publish_localize (sent n) /\
  goals_sent (sent (step e n)) = goals_sent (sent n) /\
  (_order_in_progress (self n) = false -> spin_raised (step e n) = spin_raised n).
Proof.
  intros Hst Hedge.
  destruct (handle_in_error e (loop_t n) (self n) Hst Hedge)
    as (H1 & H2 & H3 & H4 & H5 & H6).
  unfold step, goals_sent in *.
  destruct (handle e (loop_t n) (self n)) as [out o acts]; cbn in *.
  rewrite !filter_app, H4, H5, !app_nil_r.
  repeat split; trivial.
  intros H; destruct (H6 H) as [t' ->]; reflexivity.
Qed.

(** A node in ON_ERROR stays there over any history without a green rising
    edge; it asks for no localization and sends no goal meanwhile. *)
Lemma run_in_error (evs : list Event) (n : Node) :
  _current_state (self n) = STATE_ON_ERROR ->
  no_green_edge (_previous_button (self n)) evs = true ->
  _current_state (self (run evs n)) = STATE_ON_ERROR /\
  _order_in_progress (self (run evs n)) = _order_in_progress (self n) /\
  filter is_publish_localize (sent (run evs n)) =
    filter is_publish_localize (sent n) /\
  goals_sent (sent (run evs n)) = goals_sent (sent n) /\
  (_order_in_progress (self n) = false ->
   spin_raised (run evs n) = spin_raised n).
Proof.
  revert n; induction evs as [|e evs IH]; intros n Hst Hedge.
  - cbn; repeat split; trivial.
  - cbn [no_green_edge] in Hedge; apply andb_true_iff in Hedge as [He Hrest].
    apply negb_true_iff in He.
    destruct (step_in_error e n Hst He) as (H1 & H2 & H3 & H4 & H5 & H6).
    rewrite <- H2 in Hrest.
    destruct (IH (step e n) H1 Hrest) as (I1 & I2 & I3 & I4 & I5).
    cbn [run]; repeat split; try congruence.
    intros H; rewrite I5, H6; congruence.
Qed.

(** A method that starts in ON_ERROR, a green rising edge apart, assigns
    nothing to the state but ON_ERROR again. *)
Lemma handle_in_error_assigns (e : Event) (t : Z) (o : StateManager) :
  _current_state o = STATE_ON_ERROR ->
  green_edge (_previous_button o) e = false ->
  assigns_only STATE_ON_ERROR (actions (handle e t o)) = true.
Proof.
  destruct o as [st ini pb ir dor cc oip kt tt' nr td rp lbl dl nf feed].
  unfold assigns_only; cbn; intros -> Hedge.
  destruct e; cbn in Hedge.
  3-7: run_method; reflexivity.
  - run_method; reflexivity.
  - destruct pb as [prev|]; [|reflexivity].
    unfold_methods; cbn in *.
    destruct (check_button_event prev msg) as [green red]; cbn in Hedge; subst.
    reflexivity.
Qed.

(** C2, as stated, fails.  On the way to the kitchen a failed navigation
    differs from a successful one in [_current_state] alone, which the
    callback sets itself: there is no failed flag for a pass to act on.  A
    green press between the callback and the next pass leaves that pass in
    INITIALIZATION.  And a pass already under way overwrites the callback's
    ON_ERROR: [_state_initialization], when the failure comes right after its
    [send_goal], ends in GOTO_KITCHEN with the navigation marked unfinished;
    the pass that picked [_state_goto_table] before the failure ends in
    AT_TABLE. *)
Lemma failure_sets_state_not_a_flag :
  _current_state (self (run leaving (boot params0))) = STATE_GOTO_KITCHEN /\
  object (_navigator_done nav_failed (self (run leaving (boot params0)))) =
    set_current_state STATE_ON_ERROR
      (object (_navigator_done nav_ok (self (run leaving (boot params0))))) /\
  admissible
    [NavDone nav_failed; Button released; Button green_pressed; Tick]
    (run leaving (boot params0)) = true /\
  _current_state
    (self (run [NavDone nav_failed; Button released; Button green_pressed; Tick]
               (run leaving (boot params0)))) = STATE_INITIALIZATION /\
  _current_state
    (self (run [Button released; Button green_pressed; Tick; Localized]
               (boot params0))) = STATE_INITIALIZATION /\
  _current_state
    (object (tick_with After_send_goal (_navigator_done nav_failed)
               (self (run [Button released; Button green_pressed; Tick;
                           Localized] (boot params0))))) =
    STATE_GOTO_KITCHEN /\
  _navigator_finished
    (object (tick_with After_send_goal (_navigator_done nav_failed)
               (self (run [Button released; Button green_pressed; Tick;
                           Localized] (boot params0))))) = Some false /\
  _current_state
    (self (run (to_kitchen ++ [Order {| location := "table-3" |}; Tick])
               (boot params0))) = STATE_GOTO_TABLE /\
  _current_state
    (object (tick_with After_dispatch (_navigator_done nav_failed)
               (self (run (to_kitchen ++
                           [Order {| location := "table-3" |}; Tick])
                          (boot params0))))) = STATE_AT_TABLE.
Proof. vm_compute; repeat split. Qed.

(** C2, amended: when the navigator reports a failure, [_navigator_done]
    itself plays the failure sound, assigns ON_ERROR to [_current_state] and
    sets [_navigator_finished], whatever the object; there is no failed flag.
    A method that starts after it, and more generally any method that starts
    in ON_ERROR, assigns nothing but ON_ERROR and leaves the state ON_ERROR,
    unless it is a button sample with a green rising edge; so the next pass
    of the loop, if it starts after the callback and no green edge came
    first, finds and leaves ON_ERROR.  A pass already under way is not
    stopped: the handler picked in GOTO_KITCHEN or GOTO_TABLE before the
    callback then sees the navigation finished and assigns AT_KITCHEN or
    AT_TABLE, and a handler that has just sent its goal assigns its own next
    state and marks the navigation unfinished. *)
Theorem navigation_failure_forces_error
    (result : NavigateToResult) (o : StateManager) :
  res_success result = false ->
  (outcome (_navigator_done result o) = Returned tt /\
   actions (_navigator_done result o) =
     [Play_sound (_resource_path o) _navi_failed_sound;
      Assign_current_state STATE_ON_ERROR] /\
   object (_navigator_done result o) =
     set_navigator_finished (Some true)
       (set_current_state STATE_ON_ERROR o)) /\
  (forall (e : Event) (t : Z),
   green_edge (_previous_button o) e = false ->
   assigns_only STATE_ON_ERROR
     (actions (handle e t (object (_navigator_done result o)))) = true /\
   _current_state (object (handle e t (object (_navigator_done result o)))) =
     STATE_ON_ERROR) /\
  (forall (e : Event) (t : Z) (o' : StateManager),
   _current_state o' = STATE_ON_ERROR ->
   green_edge (_previous_button o') e = false ->
   assigns_only STATE_ON_ERROR (actions (handle e t o')) = true /\
   _current_state (object (handle e t o')) = STATE_ON_ERROR) /\
  (_current_state o = STATE_GOTO_KITCHEN ->
   _current_state
     (object (tick_with After_dispatch (_navigator_done result) o)) =
   STATE_AT_KITCHEN) /\
  (_current_state o = STATE_GOTO_TABLE ->
   _current_state
     (object (tick_with After_dispatch (_navigator_done result) o)) =
   STATE_AT_TABLE) /\
  (_current_state o = STATE_INITIALIZATION ->
   _init_requested o = true ->
   _initialized o = true ->
   _current_state
     (object (tick_with After_send_goal (_navigator_done result) o)) =
   STATE_GOTO_KITCHEN /\
   _navigator_finished
     (object (tick_with After_send_goal (_navigator_done result) o)) =
   Some false) /\
  (_current_state o = STATE_AT_KITCHEN ->
   _delivery_order_received o = true ->
   _delivery_location o <> None ->
   _current_state
     (object (tick_with After_send_goal (_navigator_done result) o)) =
   STATE_GOTO_TABLE /\
   _navigator_finished
     (object (tick_with After_send_goal (_navigator_done result) o)) =
   Some false) /\
  (_current_state o = STATE_AT_TABLE ->
   _customer_confirm o = true ->
   _current_state
     (object (tick_with After_send_goal (_navigator_done result) o)) =
   STATE_GOTO_KITCHEN /\
   _navigator_finished
     (object (tick_with After_send_goal (_navigator_done result) o)) =
   Some false).
Proof.
  intros Hres.
  assert (Hgen : forall (e : Event) (t : Z) (o' : StateManager),
             _current_state o' = STATE_ON_ERROR ->
             green_edge (_previous_button o') e = false ->
             assigns_only STATE_ON_ERROR (actions (handle e t o')) = true /\
             _current_state (object (handle e t o')) = STATE_ON_ERROR).
  { intros e t o' Hst Hedge; split.
    - apply handle_in_error_assigns; assumption.
    - apply (handle_in_error e t o' Hst Hedge). }
  destruct result as [ok msg]; cbn in Hres; subst ok.
  destruct o as [st ini pb ir dor cc oip kt tt' nr td rp lbl dl nf feed].
  split; [repeat split|].
  split; [intros e t Hedge; apply Hgen; [reflexivity|exact Hedge]|].
  split; [exact Hgen|].
  clear Hgen; cbn.
  split; [intros ->; destruct oip; reflexivity|].
  split; [intros ->; reflexivity|].
  split; [intros -> -> ->; split; reflexivity|].
  split; [|intros -> ->; split; reflexivity].
  intros -> -> Hdl; destruct dl; [split; reflexivity|congruence].
Qed.

(** A failure on the way to the kitchen, then a pass of the loop. *)
Lemma navigation_failure_forces_error_witness :
  _current_state (self (run leaving (boot params0))) = STATE_GOTO_KITCHEN /\
  _current_state
    (object (_navigator_done nav_failed (self (run leaving (boot params0))))) =
    STATE_ON_ERROR /\
  _current_state
    (object (handle Tick 4
       (object (_navigator_done nav_failed
                  (self (run leaving (boot params0))))))) = STATE_ON_ERROR.
Proof.
  pose proof (navigation_failure_forces_error nav_failed
                (self (run leaving (boot params0))) eq_refl)
    as ((_ & _ & Hobj) & Hnext & _).
  split; [reflexivity|]. split.
  - rewrite Hobj; reflexivity.
  - apply (Hnext Tick 4); reflexivity.
Defined.

(** C10: the constructor leaves the node in ON_ERROR, not in INITIALIZATION;
    over any history without a green rising edge the state stays ON_ERROR,
    every tick runs the handler [_state_on_error], and the node publishes no
    localization request, sends no navigation goal and raises nothing. *)
Theorem idle_until_green_button (p : Params) (evs : list Event) :
  no_green_edge None evs = true ->
  _current_state (self (boot p)) = STATE_ON_ERROR /\
  _current_state (self (run evs (boot p))) = STATE_ON_ERROR /\
  filter is_publish_localize (sent (run evs (boot p))) = [] /\
  goals_sent (sent (run evs (boot p))) = [] /\
  spin_raised (run evs (boot p)) = None /\
  (forall evs1 evs2 : list Event, evs = (evs1 ++ Tick :: evs2)%list ->
     _states (_current_state (self (run evs1 (boot p)))) = _state_on_error).
Proof.
  intros Hedge.
  destruct (run_in_error evs (boot p) eq_refl Hedge) as (H1 & _ & H3 & H4 & H5).
  repeat split; trivial.
  - apply H5; reflexivity.
  - intros evs1 evs2 ->.
    apply no_green_edge_prefix in Hedge.
    destruct (run_in_error evs1 (boot p) eq_refl Hedge) as (H & _).
    rewrite H; reflexivity.
Qed.

(** The first button sample is only stored, so a pressed green button alone
    moves nothing. *)
Lemma idle_until_green_button_witness :
  goals_sent
    (sent (run [Tick; Button green_pressed; Localized; Tick;
                Order {| location := "table-3" |}; Tick]
               (boot params0))) = [].
Proof.
  apply (idle_until_green_button params0
           [Tick; Button green_pressed; Localized; Tick;
            Order {| location := "table-3" |}; Tick]).
  reflexivity.
Defined.

(** ** Initialization *)

(** C9, counterexample: a localized message that arrived before the green
    press leaves [_initialized] true when INITIALIZATION is entered; the
    handler then resets it, asks for localization and sends no goal, and the
    state stays INITIALIZATION. *)
Lemma localized_flag_reset_on_entry :
  admissible early_localized (boot params0) = true /\
  _current_state (self (run early_localized (boot params0))) =
    STATE_INITIALIZATION /\
  _initialized (self (run early_localized (boot params0))) = true /\
  actions (_state_initialization (self (run early_localized (boot params0)))) =
    [Publish_localize; Play_sound "/opt/sounds" "kaku.wav"] /\
  _current_state
    (object (_state_initialization
               (self (run early_localized (boot params0))))) =
    STATE_INITIALIZATION /\
  _initialized
    (object (_state_initialization
               (self (run early_localized (boot params0))))) = false.
Proof. vm_compute; repeat split. Qed.

(** C9, amended: what [_state_initialization] does on every object.  With
    the localization request already made ([_init_requested] true) and
    [_initialized] true, it sends exactly one goal, to 'kitchen' with
    APPROACH_ON, [_nav_retry], the kitchen timeout as a float and distance
    0.0, marks the navigation unfinished, assigns GOTO_KITCHEN and clears
    [_init_requested].  On its first run after INITIALIZATION is entered
    ([_init_requested] false) it resets [_initialized], whatever it held,
    publishes the localization request, plays the confirm sound and sets
    [_init_requested]: no goal is sent and the state stays as it is.  With
    the request made and [_initialized] still false it does nothing. *)
Theorem initialization_requests_kitchen (o : StateManager) :
  (_init_requested o = true ->
   _initialized o = true ->
   outcome (_state_initialization o) = Returned tt /\
   actions (_state_initialization o) =
     [Send_goal {| goal_location := "kitchen";
                   goal_approach_type := APPROACH_ON;
                   goal_num_retry := _nav_retry o;
                   goal_timeout := py_float (_nav_kitchen_timeout o);
                   goal_distance := PyFloat 0 |};
      Assign_current_state STATE_GOTO_KITCHEN] /\
   object (_state_initialization o) =
     set_init_requested false
       (set_current_state STATE_GOTO_KITCHEN
          (set_navigator_finished (Some false) o))) /\
  (_init_requested o = false ->
   outcome (_state_initialization o) = Returned tt /\
   actions (_state_initialization o) =
     [Publish_localize; Play_sound (_resource_path o) _confirm_sound] /\
   object (_state_initialization o) =
     set_init_requested true (set_initialized false o)) /\
  (_init_requested o = true ->
   _initialized o = false ->
   outcome (_state_initialization o) = Returned tt /\
   actions (_state_initialization o) = [] /\
   object (_state_initialization o) = o).
Proof.
  destruct o as [st ini pb ir dor cc oip kt tt' nr td rp lbl dl nf feed].
  cbn; repeat split; subst; reflexivity.
Qed.

(** The handler's second run in the ordinary start-up, and its first run
    when the localized message came before the green press. *)
Lemma initialization_requests_kitchen_witness :
  actions (_state_initialization
             (self (run [Button released; Button green_pressed; Tick; Localized]
                        (boot params0)))) =
    [Send_goal {| goal_location := "kitchen";
                  goal_approach_type := APPROACH_ON;
                  goal_num_retry := PyInt 3;
                  goal_timeout := PyFloat 300;
                  goal_distance := PyFloat 0 |};
     Assign_current_state STATE_GOTO_KITCHEN] /\
  actions (_state_initialization (self (run early_localized (boot params0)))) =
    [Publish_localize; Play_sound "/opt/sounds" "kaku.wav"].
Proof.
  split.
  - apply (initialization_requests_kitchen
             (self (run [Button released; Button green_pressed; Tick; Localized]
                        (boot params0)))); reflexivity.
  - apply (initialization_requests_kitchen
             (self (run early_localized (boot params0)))); reflexivity.
Defined.

(** ** The round trip *)

(** C3: over the whole round trip (localize, kitchen, order, table, customer
    confirmation, kitchen again) the node reports exactly one result for the
    order and clears [_order_in_progress], but the result it reports carries
    [success = False] beside the message 'Delivery Success!'. *)
Theorem round_trip_reports_failure :
  admissible round_trip (boot params0) = true /\
  _current_state (self (run round_trip (boot params0))) = STATE_AT_KITCHEN /\
  _order_in_progress (self (run round_trip (boot params0))) = false /\
  spin_raised (run round_trip (boot params0)) = None /\
  results_reported (sent (run round_trip (boot params0))) =
    [Set_succeeded {| message := "Delivery Success!"; success := false |}].
Proof. vm_compute; repeat split. Qed.

(** ** Exceptions out of [spin] *)

(** C7: a navigator that reaches the table without ever sending feedback
    leaves [_navigator_feed] unassigned while the order is in progress; the
    next logging pass of [spin] reads it and the AttributeError leaves the
    loop. *)
Theorem logging_raises_without_feedback :
  admissible silent_navigator (boot params0) = true /\
  _current_state (self (run silent_navigator (boot params0))) =
    STATE_GOTO_TABLE /\
  _order_in_progress (self (run silent_navigator (boot params0))) = true /\
  _navigator_feed (self (run silent_navigator (boot params0))) = None /\
  spin_raised (run silent_navigator (boot params0)) =
    Some (AttributeError "_navigator_feed").
Proof. vm_compute; repeat split. Qed.

(** * Further properties *)

(** ** The LEDs *)

(** [_blink_leds] never raises and changes [last_blink_led] only; it
    publishes one colour to each LED, BLACK to one and the state's colour
    (red in ON_ERROR, green elsewhere) to the other, whatever
    [last_blink_led] held; the next call lights the other LED. *)
Theorem leds_alternate (o : StateManager) :
  outcome (_blink_leds o) = Returned tt /\
  object (_blink_leds o) = set_last_blink_led (last_blink_led o mod 2 + 1) o /\
  ((actions (_blink_leds o) =
      [Publish_led1 BLACK; Publish_led2 (lit_colour (_current_state o))] /\
    actions (_blink_leds (object (_blink_leds o))) =
      [Publish_led1 (lit_colour (_current_state o)); Publish_led2 BLACK])
   \/
   (actions (_blink_leds o) =
      [Publish_led1 (lit_colour (_current_state o)); Publish_led2 BLACK] /\
    actions (_blink_leds (object (_blink_leds o))) =
      [Publish_led1 BLACK; Publish_led2 (lit_colour (_current_state o))])).
Proof.
  destruct o as [st ini pb ir dor cc oip kt tt' nr td rp lbl dl nf feed].
  assert (Hmod : lbl mod 2 = 0 \/ lbl mod 2 = 1)
    by (pose proof (Z.mod_pos_bound lbl 2); lia).
  unfold _blink_leds, lit_colour, read, store, call, bind; cbn.
  destruct Hmod as [-> | ->]; destruct st; cbn; auto.
Qed.

(** ** Buttons *)

(** Outside ON_ERROR and AT_TABLE a button sample, whatever it holds, is
    only stored as the previous sample: no state change, nothing sent, so
    no button stops or restarts the robot while it initializes, drives or
    waits at the kitchen. *)
Theorem button_ignored_elsewhere (msg : DigitalInputEvent) (o : StateManager) :
  _current_state o <> STATE_ON_ERROR ->
  _current_state o <> STATE_AT_TABLE ->
  outcome (_process_button msg o) = Returned tt /\
  object (_process_button msg o) = set_previous_button (Some msg) o /\
  actions (_process_button msg o) = [].
Proof.
  destruct o as [st ini pb ir dor cc oip kt tt' nr td rp lbl dl nf feed].
  cbn; intros H1 H2.
  destruct pb as [prev|]; [|repeat split].
  unfold _process_button, read, bind; cbn.
  destruct (check_button_event prev msg) as [[] red];
    destruct st; try congruence; repeat split.
Qed.

(** A green press on the way to the kitchen. *)
Lemma button_ignored_elsewhere_witness :
  object (_process_button green_pressed
            (self (run (leaving ++ [Button released]) (boot params0)))) =
  set_previous_button (Some green_pressed)
    (self (run (leaving ++ [Button released]) (boot params0))).
Proof.
  apply (button_ignored_elsewhere green_pressed
           (self (run (leaving ++ [Button released]) (boot params0))));
    discriminate.
Defined.

(** At a table, a button sample with a green rising edge followed by a pass
    of the loop sends the robot home: the callback sends nothing, the pass
    plays the enjoy-your-meal sound and sends one goal to 'kitchen' with
    APPROACH_ON, retry 3, timeout 300.0 and distance 0.0, which are literals
    and not the configured [_nav_retry] and [_nav_kitchen_timeout]; the
    state becomes GOTO_KITCHEN and [_customer_confirm] is cleared. *)
Theorem customer_confirmation_sends_robot_home
    (prev msg : DigitalInputEvent) (o : StateManager) :
  _current_state o = STATE_AT_TABLE ->
  _previous_button o = Some prev ->
  fst (check_button_event prev msg) = true ->
  outcome (tick (object (_process_button msg o))) = Returned tt /\
  actions (_process_button msg o) = [] /\
  actions (tick (object (_process_button msg o))) =
    [Play_sound (_resource_path o) _enjoy_meal_sound;
     Send_goal {| goal_location := "kitchen";
                  goal_approach_type := APPROACH_ON;
                  goal_num_retry := PyInt 3;
                  goal_timeout := PyFloat 300;
                  goal_distance := PyFloat 0 |};
     Assign_current_state STATE_GOTO_KITCHEN] /\
  object (tick (object (_process_button msg o))) =
    set_current_state STATE_GOTO_KITCHEN
      (set_navigator_finished (Some false)
         (set_customer_confirm false (set_previous_button (Some msg) o))).
Proof.
  destruct o as [st ini pb ir dor cc oip kt tt' nr td rp lbl dl nf feed].
  cbn; intros -> -> Hgreen.
  unfold _process_button, tick, read, bind; cbn.
  destruct (check_button_event prev msg) as [green red]; cbn in Hgreen; subst.
  cbn. repeat split.
Qed.

(** With every parameter set away from its default. *)
Lemma customer_confirmation_sends_robot_home_witness :
  _current_state
    (object (tick (object (_process_button green_pressed
       (set_previous_button (Some released)
          (set_current_state STATE_AT_TABLE
             (_init_variables
                {| param_nav_kitchen_timeout := PyInt 60;
                   param_nav_table_timeout := PyInt 60;
                   param_nav_retry := PyInt 1;
                   param_nav_table_distance := PyFloat 1;
                   param_resource_path := "/opt/sounds" |}))))))) =
  STATE_GOTO_KITCHEN.
Proof.
  pose proof (customer_confirmation_sends_robot_home released green_pressed
    (set_previous_button (Some released)
       (set_current_state STATE_AT_TABLE
          (_init_variables
             {| param_nav_kitchen_timeout := PyInt 60;
                param_nav_table_timeout := PyInt 60;
                param_nav_retry := PyInt 1;
                param_nav_table_distance := PyFloat 1;
                param_resource_path := "/opt/sounds" |})))
    eq_refl eq_refl eq_refl) as (_ & _ & _ & H).
  rewrite H; reflexivity.
Defined.

(** ** Orders at the kitchen *)

(** At the kitchen, an order followed by a pass of the loop starts the
    delivery: the callback only accepts the goal, the pass sends one goal to
    the order's location with APPROACH_ON, the configured retry count, table
    timeout (as a float) and table distance, then plays the confirm sound;
    the state becomes GOTO_TABLE with the order in progress. *)
Theorem order_at_kitchen_starts_delivery
    (goal : DeliverOrderGoal) (o : StateManager) :
  _current_state o = STATE_AT_KITCHEN ->
  actions (_process_deliver_order goal o) = [Accept_new_goal] /\
  outcome (tick (object (_process_deliver_order goal o))) = Returned tt /\
  actions (tick (object (_process_deliver_order goal o))) =
    [Send_goal {| goal_location := location goal;
                  goal_approach_type := APPROACH_ON;
                  goal_num_retry := _nav_retry o;
                  goal_timeout := py_float (_nav_table_timeout o);
                  goal_distance := _nav_table_distance o |};
     Assign_current_state STATE_GOTO_TABLE;
     Play_sound (_resource_path o) _confirm_sound] /\
  object (tick (object (_process_deliver_order goal o))) =
    set_current_state STATE_GOTO_TABLE
      (set_navigator_finished (Some false)
         (set_order_in_progress true
            (set_delivery_order_received false
               (set_delivery_location (Some (location goal)) o)))).
Proof.
  destruct o as [st ini pb ir dor cc oip kt tt' nr td rp lbl dl nf feed].
  cbn; intros ->; repeat split.
Qed.

(** An order for another table, once the robot reached the kitchen. *)
Lemma order_at_kitchen_starts_delivery_witness :
  actions (tick (object (_process_deliver_order {| location := "table-7" |}
                           (self (run to_kitchen (boot params0)))))) =
    [Send_goal {| goal_location := "table-7";
                  goal_approach_type := APPROACH_ON;
                  goal_num_retry := PyInt 3;
                  goal_timeout := PyFloat 300;
                  goal_distance := PyFloat 5 |};
     Assign_current_state STATE_GOTO_TABLE;
     Play_sound "/opt/sounds" "kaku.wav"].
Proof.
  apply (order_at_kitchen_starts_delivery {| location := "table-7" |}
           (self (run to_kitchen (boot params0)))); reflexivity.
Defined.

(** ** Waiting *)

(** A pass of the loop in a state that has nothing to act on (localization
    requested but not confirmed, navigation not finished, no order received,
    no customer confirmation, or ON_ERROR) runs a handler that returns,
    leaves the object untouched and sends nothing. *)
Theorem tick_waits (o : StateManager) :
  waiting o = true ->
  outcome (tick o) = Returned tt /\
  object (tick o) = o /\
  actions (tick o) = [].
Proof.
  destruct o as [st ini pb ir dor cc oip kt tt' nr td rp lbl dl nf feed].
  unfold waiting; cbn.
  destruct st; cbn; intros H.
  - apply andb_true_iff in H as [-> H]; apply negb_true_iff in H as ->.
    repeat split.
  - destruct nf as [[]|]; try discriminate; repeat split.
  - apply negb_true_iff in H as ->; repeat split.
  - destruct nf as [[]|]; try discriminate; repeat split.
  - apply negb_true_iff in H as ->; repeat split.
  - repeat split.
Qed.

(** On the way to the kitchen, before the navigator reports. *)
Lemma tick_waits_witness :
  object (tick (self (run leaving (boot params0)))) =
  self (run leaving (boot params0)).
Proof.
  apply (tick_waits (self (run leaving (boot params0)))); reflexivity.
Defined.

(** ** Feedback *)

(** With an order in progress, [_logging] run after a navigator feedback
    does not raise: it publishes the state name and a feedback built from
    the state and from that last feedback's distance and message, whatever
    [_navigator_feed] held before. *)
Theorem logging_reports_latest_feedback
    (feedback : NavigateToFeedback) (o : StateManager) :
  _order_in_progress o = true ->
  outcome (_logging (object (_navigator_feedback feedback o))) = Returned tt /\
  actions (_logging (object (_navigator_feedback feedback o))) =
    [Publish_debug (state_name (_current_state o));
     Publish_feedback (_current_state o)
       {| feed_distance := fb_distance feedback;
          feed_message := fb_message feedback |}] /\
  object (_logging (object (_navigator_feedback feedback o))) =
    set_navigator_feed
      (Some {| feed_distance := fb_distance feedback;
               feed_message := fb_message feedback |}) o.
Proof.
  destruct o as [st ini pb ir dor cc oip kt tt' nr td rp lbl dl nf feed].
  destruct feedback as [d m []]; cbn; intros ->; repeat split.
Qed.

(** The history that ends in the AttributeError, with a feedback first. *)
Lemma logging_reports_latest_feedback_witness :
  actions (_logging (object (_navigator_feedback progress
             (self (run silent_navigator (boot params0)))))) =
    [Publish_debug "GOTO_TABLE";
     Publish_feedback STATE_GOTO_TABLE
       {| feed_distance := PyFloat 2; feed_message := "moving" |}].
Proof.
  apply (logging_reports_latest_feedback progress
           (self (run silent_navigator (boot params0)))); reflexivity.
Defined.

(** ** Results *)

(** No method ever reports a result with [success = True]: each result an
    event makes the node report through [set_succeeded] carries
    [success = False]. *)
Theorem never_reports_success (e : Event) (t : Z) (o : StateManager) :
  forallb reports_failure (actions (handle e t o)) = true.
Proof.
  destruct o as [st ini pb ir dor cc oip kt tt' nr td rp lbl dl nf feed].
  destruct e; run_method; reflexivity.
Qed.

(** ** Exceptions *)

(** On a consistent object no read of [_navigator_finished] or
    [_delivery_location] fails; what can fail is the read of
    [_navigator_feed], when it is unset. *)
Lemma handle_raises_only_feed (e : Event) (t : Z) (o : StateManager)
    (pending : bool) :
  consistent o pending ->
  match outcome (handle e t o) with
  | Returned _ => True
  | Raised x => x = AttributeError "_navigator_feed" /\ _navigator_feed o = None
  end.
Proof.
  destruct o as [st ini pb ir dor cc oip kt tt' nr td rp lbl dl nf feed].
  unfold consistent; cbn; intros (Hnav & Hoip & Hord).
  destruct e; run_method.
  all: cbn in *; try exact I; try (split; reflexivity);
    try destruct pending; try destruct dor; cbn in *; intuition congruence.
Qed.

(** [_navigator_feed], once assigned, stays assigned. *)
Lemma feed_kept (e : Event) (t : Z) (o : StateManager) :
  _navigator_feed o <> None ->
  _navigator_feed (object (handle e t o)) <> None.
Proof.
  destruct o as [st ini pb ir dor cc oip kt tt' nr td rp lbl dl nf feed].
  cbn; intros H.
  destruct e; run_method; cbn; congruence.
Qed.

(** Along every admissible history from the constructor, the only exception
    that can leave [spin] is the AttributeError for [_navigator_feed]: the
    other two attributes the constructor leaves unset, [_navigator_finished]
    and [_delivery_location], are always assigned before they are read. *)
Theorem only_navigator_feed_read_can_fail (p : Params) (evs : list Event) :
  admissible evs (boot p) = true ->
  spin_raised (run evs (boot p)) = None \/
  spin_raised (run evs (boot p)) = Some (AttributeError "_navigator_feed").
Proof.
  induction evs as [|e evs IH] using rev_ind; intros Hadm; [left; reflexivity|].
  destruct (consistent_before p evs e Hadm) as [Hen Hcons].
  rewrite run_app; cbn [run]; unfold step; cbn [spin_raised].
  pose proof (handle_raises_only_feed e (loop_t (run evs (boot p))) _ _ Hcons)
    as Hout.
  destruct (outcome (handle e (loop_t (run evs (boot p)))
                       (self (run evs (boot p))))) as [t'|x].
  - left; apply (enabled_running e), Hen.
  - right; destruct Hout as [-> _]; reflexivity.
Qed.

(** The round trip. *)
Lemma only_navigator_feed_read_can_fail_witness :
  spin_raised (run round_trip (boot params0)) = None \/
  spin_raised (run round_trip (boot params0)) =
    Some (AttributeError "_navigator_feed").
Proof.
  apply (only_navigator_feed_read_can_fail params0 round_trip); reflexivity.
Defined.

Lemma run_with_feed (evs : list Event) (n : Node) :
  invariant n ->
  spin_raised n = None ->
  _navigator_feed (self n) <> None ->
  admissible evs n = true ->
  spin_raised (run evs n) = None.
Proof.
  revert n; induction evs as [|e evs IH]; intros n Hinv Hrun Hfeed Hadm;
    cbn in *; [exact Hrun|].
  apply andb_true_iff in Hadm as [Hen Hadm].
  apply IH; trivial.
  - apply invariant_step; assumption.
  - pose proof (handle_raises_only_feed e (loop_t n) _ _ (Hinv Hrun)) as Hout.
    unfold step; cbn [spin_raised].
    destruct (outcome (handle e (loop_t n) (self n))); [exact Hrun|].
    destruct Hout as [_ Hnone]; contradiction.
  - unfold step; cbn [self]; apply feed_kept, Hfeed.
Qed.

(** Once the navigator has sent one feedback, no exception leaves [spin] any
    more: every admissible history from the constructor that holds a
    feedback ends with [spin] still running. *)
Theorem no_exception_once_feedback_received
    (p : Params) (evs1 evs2 : list Event) (feedback : NavigateToFeedback) :
  admissible (evs1 ++ NavFeedback feedback :: evs2) (boot p) = true ->
  spin_raised (run (evs1 ++ NavFeedback feedback :: evs2) (boot p)) = None.
Proof.
  rewrite admissible_app, run_app; cbn [admissible run].
  intros H; apply andb_true_iff in H as [Hadm1 H].
  apply andb_true_iff in H as [Hen Hadm2].
  pose proof (invariant_run evs1 (boot p) Hadm1 (invariant_boot p)) as Hinv.
  pose proof (enabled_running _ _ Hen) as Hrun.
  apply run_with_feed; trivial.
  - apply invariant_step; assumption.
  - unfold step; cbn [spin_raised]; destruct (self (run evs1 (boot p)));
      destruct feedback as [d m []]; exact Hrun.
  - unfold step; cbn [self]; destruct (self (run evs1 (boot p)));
      destruct feedback as [d m []]; discriminate.
Qed.

(** The history that ends in the AttributeError, with one feedback sent on
    the way to the kitchen. *)
Lemma no_exception_once_feedback_received_witness :
  spin_raised
    (run ([Button released; Button green_pressed; Tick; Localized; Tick] ++
          NavFeedback progress ::
          [NavDone nav_ok; Tick; Order {| location := "table-3" |}; Tick])
         (boot params0)) = None.
Proof.
  apply (no_exception_once_feedback_received params0
           [Button released; Button green_pressed; Tick; Localized; Tick]
           [NavDone nav_ok; Tick; Order {| location := "table-3" |}; Tick]
           progress); reflexivity.
Defined.

(** ** The state machine *)

(** Whatever the object it runs on, so also when a callback has changed the
    state since the loop picked the handler, the handler of state [s] either
    assigns nothing to [_current_state] and leaves it as it found it, or
    assigns it exactly once, the successor of [s] in the cycle
    INITIALIZATION, GOTO_KITCHEN, AT_KITCHEN, GOTO_TABLE, AT_TABLE,
    GOTO_KITCHEN; the handler of ON_ERROR never assigns. *)
Theorem handlers_assign_their_successor (s : RobotState) (o : StateManager) :
  (state_assignments (actions (_states s o)) = [] /\
   _current_state (object (_states s o)) = _current_state o) \/
  (exists s' : RobotState,
     next_state s = Some s' /\
     state_assignments (actions (_states s o)) = [Assign_current_state s'] /\
     _current_state (object (_states s o)) = s').
Proof.
  destruct o as [st ini pb ir dor cc oip kt tt' nr td rp lbl dl nf feed].
  unfold state_assignments.
  destruct s; run_method; cbn;
    solve [left; split; reflexivity
          | right; eexists; repeat split; reflexivity].
Qed.

(** ** The pace of the loop *)

Lemma raised_sticks (evs : list Event) (n : Node) :
  spin_raised (run evs n) = None -> spin_raised n = None.
Proof.
  revert n; induction evs as [|e evs IH]; intros n H; cbn in H; [exact H|].
  apply IH in H; unfold step in H; cbn [spin_raised] in H.
  destruct (outcome (handle e (loop_t n) (self n))); [exact H|discriminate].
Qed.

(** Only a pass of the loop advances the counter [t], and it publishes the
    state exactly when [t] was a multiple of five. *)
Lemma handle_counter (e : Event) (t t' : Z) (o : StateManager) :
  outcome (handle e t o) = Returned t' ->
  t' = (if is_tick e then t mod 5 + 1 else t) /\
  length (filter is_publish_debug (actions (handle e t o))) =
    if is_tick e && (t mod 5 =? 0) then 1%nat else 0%nat.
Proof.
  destruct o as [st ini pb ir dor cc oip kt tt' nr td rp lbl dl nf feed].
  destruct (Z.eqb_spec (t mod 5) 0) as [Hz|Hz].
  all: destruct e; run_method; cbn.
  all: intros H; try discriminate H; injection H as <-.
  all: repeat match goal with
              | H : (_ =? _) = true |- _ => apply Z.eqb_eq in H
              | H : (_ =? _) = false |- _ => apply Z.eqb_neq in H
              end.
  all: split; trivial; lia.
Qed.

Lemma pace_from (evs : list Event) (n : Node) :
  1 <= loop_t n <= 5 ->
  spin_raised (run evs n) = None ->
  loop_t (run evs n) = (loop_t n - 1 + ticks evs) mod 5 + 1 /\
  Z.of_nat (length (filter is_publish_debug (sent (run evs n)))) =
    Z.of_nat (length (filter is_publish_debug (sent n))) +
    (loop_t n - 1 + ticks evs) / 5.
Proof.
  revert n; induction evs as [|e evs IH]; intros n Ht Hrun.
  - cbn [run ticks]; split; [|rewrite Z.div_small by lia; lia].
    rewrite Z.mod_small by lia; lia.
  - cbn [run] in *.
    pose proof (raised_sticks _ _ Hrun) as Hstep.
    unfold step in Hstep; cbn [spin_raised] in Hstep.
    destruct (outcome (handle e (loop_t n) (self n))) as [t'|x] eqn:Hout;
      [|discriminate].
    destruct (handle_counter e (loop_t n) t' (self n) Hout) as [Ht' Hcount].
    assert (Hl : loop_t (step e n) = t') by (unfold step; rewrite Hout; trivial).
    assert (Hs : sent (step e n) =
                 (sent n ++ actions (handle e (loop_t n) (self n)))%list)
      by reflexivity.
    assert (Hk : ticks (e :: evs) = (if is_tick e then 1 else 0) + ticks evs)
      by (destruct e; cbn [ticks is_tick]; lia).
    pose proof (Z.mod_pos_bound (loop_t n) 5 ltac:(lia)) as Hb.
    destruct (IH (step e n)) as [I1 I2];
      [rewrite Hl; destruct (is_tick e); lia|exact Hrun|].
    rewrite I1, I2, Hl, Hs, Hk, filter_app, length_app, Nat2Z.inj_add, Hcount.
    destruct (is_tick e); cbn [andb]; subst t'.
    + destruct (Z.eqb_spec (loop_t n mod 5) 0) as [Hz|Hz].
      * assert (H5 : loop_t n = 5) by (Z.div_mod_to_equations; lia).
        rewrite H5; cbn [Z.modulo]; change (5 mod 5) with 0.
        replace (0 + 1 - 1 + ticks evs) with (ticks evs) by lia.
        replace (5 - 1 + (1 + ticks evs)) with (ticks evs + 1 * 5) by lia.
        rewrite Z.mod_add, Z.div_add by lia.
        split; lia.
      * assert (Hm : loop_t n mod 5 = loop_t n)
          by (apply Z.mod_small; Z.div_mod_to_equations; lia).
        rewrite Hm.
        replace (loop_t n + 1 - 1 + ticks evs)
          with (loop_t n - 1 + (1 + ticks evs)) by lia.
        split; lia.
    + replace (loop_t n - 1 + (0 + ticks evs))
        with (loop_t n - 1 + ticks evs) by lia.
      split; lia.
Qed.

(** As long as [spin] has not raised, after any history the loop counter is
    [(k + 1) mod 5 + 1] and the state has been published on robot_status
    [(k + 1) / 5] times, [k] being the number of passes so far: the first
    time on the fourth pass, then on every fifth; callbacks do not count. *)
Theorem status_every_fifth_pass (p : Params) (evs : list Event) :
  spin_raised (run evs (boot p)) = None ->
  loop_t (run evs (boot p)) = (ticks evs + 1) mod 5 + 1 /\
  Z.of_nat (length (filter is_publish_debug (sent (run evs (boot p))))) =
    (ticks evs + 1) / 5.
Proof.
  intros Hrun.
  destruct (pace_from evs (boot p)) as [H1 H2]; [cbn; lia|exact Hrun|].
  cbn [boot loop_t sent filter length] in H1, H2.
  replace (2 - 1 + ticks evs) with (ticks evs + 1) in * by lia.
  split; [exact H1|]. rewrite H2; reflexivity.
Qed.

(** The round trip and three more passes. *)
Lemma status_every_fifth_pass_witness :
  Z.of_nat (length (filter is_publish_debug
                      (sent (run (round_trip ++ [Tick; Tick; Tick])
                                 (boot params0))))) =
  (ticks (round_trip ++ [Tick; Tick; Tick]) + 1) / 5.
Proof.
  apply (status_every_fifth_pass params0 (round_trip ++ [Tick; Tick; Tick]));
    reflexivity.
Defined.
